(** * dpxdt/server/auth.py: authentication for the API server and frontend

    A shallow embedding of [auth.py] and the properties of its access
    decisions.  Tables of the database are finite maps keyed by primary key,
    Flask's [abort] is an exception carrying the status code, and every view
    is a function from the request context and the database to an outcome
    and the database it leaves behind. *)

From Stdlib Require Import ZArith Ascii String.
From stdpp Require Import base option gmap strings relations.

Open Scope string_scope.
Open Scope Z_scope.

(** ** The Python runtime the views run on *)

(** Exceptions that leave a view.  [abort(code)] raises werkzeug's
    [HTTPException], which the framework turns into a response with that
    status code. *)
Inductive Exn :=
| HTTPException (code : Z)
| NameError (name : string)
| AttributeError (attr : string).

Inductive Result (A : Type) :=
| Return (a : A)
| Raise (e : Exn).
Arguments Return {A} a.
Arguments Raise {A} e.

#[global] Instance Result_bind : MBind Result := λ A B k r,
  match r with
  | Return a => k a
  | Raise e => Raise e
  end.

Definition abort {A} (code : Z) : Result A := Raise (HTTPException code).

(** Objects bound to module-level names.  Only their truth value is ever
    inspected. *)
Inductive PyObj :=
| PyModule
| PyFunction
| PyInstance
| PyStr (s : string)
| PyInt (z : Z).

Definition truthy (o : PyObj) : bool :=
  match o with
  | PyStr s => negb (String.eqb s "")
  | PyInt z => negb (z =? 0)
  | _ => true
  end.

(** Truth value of an optional integer: [None] and [0] are false. *)
Definition truthy_int (v : option Z) : bool :=
  match v with
  | Some z => negb (z =? 0)
  | None => false
  end.

(** [a or b] on optional integers. *)
Definition py_or (a b : option Z) : option Z :=
  if truthy_int a then a else b.

(** The names [auth.py] binds at module level: its imports (lines 18-35),
    its constants (lines 38-42) and its functions. *)
Definition module_globals : list (string * PyObj) :=
  [ ("functools", PyModule); ("json", PyModule); ("logging", PyModule);
    ("urllib", PyModule); ("urllib2", PyModule);
    ("abort", PyFunction); ("redirect", PyFunction);
    ("render_template", PyFunction); ("request", PyInstance);
    ("url_for", PyFunction);
    ("current_user", PyInstance); ("fresh_login_required", PyFunction);
    ("login_required", PyFunction); ("login_user", PyFunction);
    ("app", PyInstance); ("db", PyInstance); ("login", PyInstance);
    ("config", PyModule); ("forms", PyModule); ("models", PyModule);
    ("GOOGLE_OAUTH2_AUTH_URL",
       PyStr "https://accounts.google.com/o/oauth2/auth");
    ("GOOGLE_OAUTH2_TOKEN_URL",
       PyStr "https://accounts.google.com/o/oauth2/token");
    ("GOOGLE_OAUTH2_USERINFO_URL",
       PyStr "https://www.googleapis.com/oauth2/v1/userinfo");
    ("GOOGLE_OAUTH2_SCOPES",
       PyStr "https://www.googleapis.com/auth/userinfo.email");
    ("FETCH_TIMEOUT_SECONDS", PyInt 60);
    ("load_user", PyFunction); ("login_view", PyFunction);
    ("login_auth", PyFunction); ("debug_login", PyFunction);
    ("superuser_required", PyFunction);
    ("can_user_access_build", PyFunction);
    ("build_access_required", PyFunction);
    ("api_key_required", PyFunction);
    ("manage_api_keys", PyFunction); ("revoke_api_key", PyFunction) ].

Fixpoint assoc (name : string) (env : list (string * PyObj)) : option PyObj :=
  match env with
  | [] => None
  | (n, o) :: env' => if String.eqb n name then Some o else assoc name env'
  end.

(** Reading a global name inside a function body: the module's globals are
    searched (no builtin is called [auth], [flask] or [utils]), and a name
    that is not there raises [NameError]. *)
Definition load_global (name : string) : Result PyObj :=
  match assoc name module_globals with
  | Some o => Return o
  | None => Raise (NameError name)
  end.

(** ** Data model *)

(** Modelled from the spec: [models.User], declared in models.py.  The id is
    the provider-qualified string and the primary key of the user table. *)
Module User.
Record t := mk { id : string; email_address : string; superuser : bool }.
End User.

(** Modelled from the spec: [models.Build], declared in models.py.  [owners]
    holds the ids of the users the ownership relation links to the build. *)
Module Build.
Record t := mk { id : Z; public : bool; owners : gset string }.
End Build.

(** Modelled from the spec: [models.ApiKey], declared in models.py.
    [build_id] is empty for a key that is scoped to no build. *)
Module ApiKey.
Record t := mk {
  id : string;
  secret : string;
  active : bool;
  build_id : option Z;
  superuser : bool
}.

Definition deactivate (k : t) : t :=
  mk (id k) (secret k) false (build_id k) (superuser k).
End ApiKey.

(** The three tables, keyed by primary key ([Model.query.get]). *)
Record DB := mkDB {
  users : gmap string User.t;
  builds : gmap Z Build.t;
  api_keys : gmap string ApiKey.t
}.

(** ** Request context *)

(** [request.authorization]: the parsed credentials.  The password is absent
    for schemes other than Basic. *)
Record Authorization := mkAuthorization {
  username : string;
  password : option string
}.

Record Request := mkRequest {
  method : string;
  url : string;
  args : gmap string string;
  form : gmap string string;
  authorization : option Authorization
}.

(** [flask.ext.login.current_user]: the session's user or the anonymous
    sentinel. *)
Inductive CurrentUser :=
| AnonymousUser
| LoggedIn (u : User.t).

Definition is_authenticated (c : CurrentUser) : bool :=
  match c with
  | AnonymousUser => false
  | LoggedIn _ => true
  end.

Definition get_id (c : CurrentUser) : option string :=
  match c with
  | AnonymousUser => None
  | LoggedIn u => Some (User.id u)
  end.

Record Context := mkContext {
  request : Request;
  current_user : CurrentUser
}.

(** Targets of [redirect]: a literal URL (possibly a missing parameter) or
    [url_for(endpoint, build_id=...)]. *)
Inductive Location :=
| Url (u : option string)
| UrlFor (endpoint : string) (build_id : Z).

Inductive Response :=
| Redirect (target : Location)
| LoginRedirect (next_url : string)
| RenderTemplate (template : string).

(** A view's outcome together with the database it leaves. *)
Definition Outcome : Type := Result Response * DB.
Definition View : Type := Context → DB → Outcome.

(** Modelled from the spec: [login.unauthorized()].  The login manager is
    configured in the package's __init__, which is not part of this module;
    the spec (4.2) has it answer with a redirect to the login entry point
    carrying the current request URL as [next_url]. *)
Definition login_unauthorized (ctx : Context) : Result Response :=
  Return (LoginRedirect (url (request ctx))).

(** Modelled from the spec: the forms of forms.py, decoded and validated by
    the form library (a black box, section 6): whether [validate_on_submit()] holds
    and, for the revocation form, the data of its [id] field. *)
Module CreateApiKeyForm.
Record t := mk { validate_on_submit : bool }.
End CreateApiKeyForm.

Module RevokeApiKeyForm.
Record t := mk { validate_on_submit : bool; id_data : string }.
End RevokeApiKeyForm.

(** The profile the identity provider returns: [result_dict['id']] and
    [result_dict['email']]. *)
Record UserInfo := mkUserInfo { info_id : string; info_email : string }.

(** What [login_auth] leaves: the user handed to [login_user], the response
    and the database. *)
Record Login := mkLogin {
  logged_in : User.t;
  login_response : Response;
  login_db : DB
}.

(** What [can_user_access_build] returns: the tuple [(response, None)] or
    [(None, build)]. *)
Inductive Access :=
| Denied (response : Response)
| Granted (build : Build.t).

Section Server.

(** Python's [int] as used by [MultiDict.get(key, type=int)]: the parsed
    integer, or nothing where [int] raises [ValueError]. *)
Variable int : string → option Z.

(** [models.User.GOOGLE_OAUTH2], the provider tag declared in models.py. *)
Variable GOOGLE_OAUTH2 : string.

(** [d.get(key, type=int)] *)
Definition get_int (d : gmap string string) (key : string) : option Z :=
  d !! key ≫= int.

(** Lines 155-159: is the session's user one of the build's owners?
    [filter_by(id=...).first()] yields the owner's row or [None]; only its
    truth value is used. *)
Definition user_is_owner (c : CurrentUser) (build : Build.t) : bool :=
  if is_authenticated c then
    match get_id c with
    | Some uid => bool_decide (uid ∈ Build.owners build)
    | None => false
    end
  else false.

(** Lines 131-174. *)
Definition can_user_access_build (param_name : string)
    (ctx : Context) (db : DB) : Result Access :=
  let build_id :=
    py_or (get_int (args (request ctx)) param_name)
          (get_int (form (request ctx)) param_name) in
  match build_id with
  | Some build_id =>
    if negb (build_id =? 0) then
      match builds db !! build_id with
      | None => abort 404
      | Some build =>
        if negb (user_is_owner (current_user ctx) build) then
          if negb (String.eqb (method (request ctx)) "GET") then abort 403
          else if Build.public build then Return (Granted build)
          else if is_authenticated (current_user ctx) then abort 403
          else r ← login_unauthorized ctx; Return (Denied r)
        else Return (Granted build)
      end
    else abort 400
  | None => abort 400
  end.

(** Lines 177-206, for both ways of using the decorator. *)
Definition build_access_required (param_name : string)
    (f : Build.t → View) : View := λ ctx db,
  match can_user_access_build param_name ctx db with
  | Raise e => (Raise e, db)
  | Return (Denied response) => (Return response, db)
  | Return (Granted build) => f build ctx db
  end.


(** The session's user is authenticated and is a member of the build's
    owners. *)
Definition Owner (c : CurrentUser) (build : Build.t) : Prop :=
  ∃ u, c = LoggedIn u ∧ User.id u ∈ Build.owners build.

(** Lines 143-153 resolve the request to [build]: the parameter yields a
    build id that counts as present, and the build table has it. *)
Definition names_build (param_name : string) (ctx : Context) (db : DB)
    (build : Build.t) : Prop :=
  ∃ build_id,
    py_or (get_int (args (request ctx)) param_name)
          (get_int (form (request ctx)) param_name) = Some build_id
    ∧ build_id ≠ 0
    ∧ builds db !! build_id = Some build.

(** Lines 220-250: what [wrapped] does once it is past the test for a
    missing header.  [auth_header.username] on an absent header is an
    attribute read on [None]. *)
Definition api_key_checks (auth_header : option Authorization)
    (f : View) : View := λ ctx db,
  match auth_header with
  | None => (Raise (AttributeError "username"), db)
  | Some auth_header =>
    match api_keys db !! username auth_header with
    | None => (abort 403, db)
    | Some api_key =>
      if negb (ApiKey.active api_key) then (abort 403, db)
      else if negb (bool_decide
                      (Some (ApiKey.secret api_key) = password auth_header))
      then (abort 403, db)
      else
        let build_id := get_int (form (request ctx)) "build_id" in
        if negb (ApiKey.superuser api_key) then
          if truthy_int build_id
             && bool_decide (ApiKey.build_id api_key = build_id)
          then
            match build_id ≫= (λ b, builds db !! b) with
            | None => (abort 404, db)
            | Some _ => f ctx db
            end
          else (abort 403, db)
        else f ctx db
    end
  end.

(** Lines 209-252.  Line 214 tests the global name [auth], not the local
    [auth_header]; line 216 reads [flask.Response] through the global name
    [flask].  None of the objects this module binds has a [Response]
    attribute. *)
Definition api_key_required (f : View) : View := λ ctx db,
  let auth_header := authorization (request ctx) in
  match load_global "auth" with
  | Raise e => (Raise e, db)
  | Return auth =>
    if negb (truthy auth) then
      match load_global "flask" with
      | Raise e => (Raise e, db)
      | Return _ => (Raise (AttributeError "Response"), db)
      end
    else api_key_checks auth_header f ctx db
  end.

(** Lines 97-108 of [login_auth]: the part that follows the two fetches from
    the identity provider, whose decoded answer is [result_dict].  A new
    user row gets the column default for [superuser]. *)
Definition login_auth (result_dict : UserInfo) (ctx : Context) (db : DB)
    : Login :=
  let user_id := GOOGLE_OAUTH2 +:+ ":" +:+ info_id result_dict in
  let '(user, db) :=
    match users db !! user_id with
    | Some user => (user, db)
    | None =>
      let user := User.mk user_id (info_email result_dict) false in
      (user, mkDB (<[user_id := user]> (users db)) (builds db) (api_keys db))
    end in
  mkLogin user (Redirect (Url (args (request ctx) !! "state"))) db.

(** Lines 255-293.  Line 264 reads [utils.human_uuid] through the global
    name [utils] before anything is added to the session; none of the
    objects this module binds has a [human_uuid] attribute. *)
Definition manage_api_keys (create_form : CreateApiKeyForm.t)
    (build : Build.t) : View := λ ctx db,
  if CreateApiKeyForm.validate_on_submit create_form then
    match load_global "utils" with
    | Raise e => (Raise e, db)
    | Return _ => (Raise (AttributeError "human_uuid"), db)
    end
  else (Return (RenderTemplate "view_api_keys.html"), db).

(** Lines 296-313.  [api_key.build_id] on a key that was not found is an
    attribute read on [None]. *)
Definition revoke_api_key (form : RevokeApiKeyForm.t)
    (build : Build.t) : View := λ ctx db,
  if RevokeApiKeyForm.validate_on_submit form then
    match api_keys db !! RevokeApiKeyForm.id_data form with
    | None => (Raise (AttributeError "build_id"), db)
    | Some api_key =>
      if negb (bool_decide (ApiKey.build_id api_key = Some (Build.id build)))
      then (abort 403, db)
      else
        (Return (Redirect (UrlFor "manage_api_keys" (Build.id build))),
         mkDB (users db) (builds db)
              (<[RevokeApiKeyForm.id_data form := ApiKey.deactivate api_key]>
                 (api_keys db)))
    end
  else (Return (Redirect (UrlFor "manage_api_keys" (Build.id build))), db).

(** One write of this module to the database: the views that add or commit. *)
Inductive step : DB → DB → Prop :=
| step_login_auth result_dict ctx db :
    step db (login_db (login_auth result_dict ctx db))
| step_manage_api_keys create_form build ctx db :
    step db (manage_api_keys create_form build ctx db).2
| step_revoke_api_key form build ctx db :
    step db (revoke_api_key form build ctx db).2.

(** Lines 45-47: the loader that restores the session's user from the id
    kept in the session. *)
Definition load_user (user_id : string) (db : DB) : option User.t :=
  users db !! user_id.

(** Lines 143-145: the build id [can_user_access_build] reads, from the
    query string first and from the form otherwise. *)
Definition requested_build_id (param_name : string) (ctx : Context)
    : option Z :=
  py_or (get_int (args (request ctx)) param_name)
        (get_int (form (request ctx)) param_name).

(** The conditions under which lines 161-174 let a resolved build through:
    ownership, or a GET of a public build. *)
Definition may_access (ctx : Context) (build : Build.t) : Prop :=
  Owner (current_user ctx) build
  ∨ (method (request ctx) = "GET" ∧ Build.public build = true).

(** The credentials and the scope lines 220-250 let through: the header
    names an active key and carries its secret, and the key is a superuser
    key or its build is the one the form names, present and stored. *)
Definition admits (auth_header : option Authorization) (ctx : Context)
    (db : DB) : Prop :=
  ∃ hdr api_key,
    auth_header = Some hdr
    ∧ api_keys db !! username hdr = Some api_key
    ∧ ApiKey.active api_key = true
    ∧ password hdr = Some (ApiKey.secret api_key)
    ∧ (ApiKey.superuser api_key = true
       ∨ ∃ b build,
           get_int (form (request ctx)) "build_id" = Some b
           ∧ b ≠ 0
           ∧ ApiKey.build_id api_key = Some b
           ∧ builds db !! b = Some build).

(** Every row is stored under its own primary key. *)
Definition db_keyed (db : DB) : Prop :=
  map_Forall (λ k u, User.id u = k) (users db)
  ∧ map_Forall (λ k b, Build.id b = k) (builds db)
  ∧ map_Forall (λ k a, ApiKey.id a = k) (api_keys db).

End Server.

(** An instance of [int] for closed examples: an optional minus sign followed
    by one or more ASCII digits. *)
Definition digit (a : ascii) : option Z :=
  let n := Z.of_N (N_of_ascii a) in
  if (48 <=? n) && (n <=? 57) then Some (n - 48) else None.

Fixpoint digits (acc : Z) (s : string) : option Z :=
  match s with
  | EmptyString => Some acc
  | String a s' => d ← digit a; digits (10 * acc + d) s'
  end.

Definition int_ascii (s : string) : option Z :=
  match s with
  | EmptyString => None
  | String "-" EmptyString => None
  | String "-" s' => Z.opp <$> digits 0 s'
  | _ => digits 0 s
  end.

(** ** Sample data: the scenarios of the spec *)

Definition U1 : User.t := User.mk "google_oauth2:1" "u1@example.com" false.
Definition U2 : User.t := User.mk "google_oauth2:2" "u2@example.com" false.

Definition build5 : Build.t := Build.mk 5 false {[ User.id U1 ]}.
Definition build6 : Build.t := Build.mk 6 true {[ User.id U1 ]}.

Definition k1 : ApiKey.t := ApiKey.mk "k1" "s1" true (Some 5) false.
Definition k2 : ApiKey.t := ApiKey.mk "k2" "s2" true None false.
Definition k3 : ApiKey.t := ApiKey.mk "k3" "s3" true None true.

Definition sample_db : DB :=
  mkDB {[ User.id U1 := U1; User.id U2 := U2 ]}
       {[ 5 := build5; 6 := build6 ]}
       {[ "k1" := k1; "k2" := k2; "k3" := k3 ]}.

Definition get_build (n : string) : Request :=
  mkRequest "GET" ("/build?id=" +:+ n) {[ "id" := n ]} ∅ None.

Definition post_build (n : string) : Request :=
  mkRequest "POST" "/build" ∅ {[ "id" := n ]} None.

(** An API request with Basic credentials and a [build_id] form field. *)
Definition api_post (user pass : string) (build_id : option string)
    : Request :=
  mkRequest "POST" "/api/report" ∅
    (match build_id with
     | Some n => {[ "build_id" := n ]}
     | None => ∅
     end)
    (Some (mkAuthorization user (Some pass))).

(** An API request that carries no authorization header. *)
Definition api_post_no_header : Request :=
  mkRequest "POST" "/api/report" ∅ {[ "build_id" := "5" ]} None.

(** A handler to wrap: it answers with a page and leaves the database. *)
Definition handler : View := λ ctx db, (Return (RenderTemplate "ok"), db).

(** The revocation form submitted for key [k1]. *)
Definition revoke_k1 : RevokeApiKeyForm.t := RevokeApiKeyForm.mk true "k1".

(** A first login by a third identity, then the revocation of key [k1] by
    its owner. *)
Definition sample_login : UserInfo := mkUserInfo "3" "u3@example.com".

Definition callback : Context :=
  mkContext (mkRequest "GET" "/oauth2callback"
               {[ "code" := "c0de"; "state" := "/build?id=5" ]} ∅ None)
            AnonymousUser.

Definition revoke_post : Context :=
  mkContext (mkRequest "POST" "/api_keys.revoke" ∅
               {[ "build_id" := "5"; "id" := "k1" ]} None)
            (LoggedIn U1).

Definition sample_db_later : DB :=
  (revoke_api_key revoke_k1 build5 revoke_post
     (login_db (login_auth "google_oauth2" sample_login callback
                  sample_db))).2.

(** A view other than [handler]. *)
Definition other_handler : View := λ ctx db,
  (Return (RenderTemplate "other"), db).

(** * Properties *)

Section Properties.

Variable int : string → option Z.
Variable GOOGLE_OAUTH2 : string.

(** ** The resource access evaluation *)

Lemma user_is_owner_spec c build :
  user_is_owner c build = true ↔ Owner c build.
Proof.
  unfold user_is_owner, Owner. destruct c as [|u]; simpl.
  - split; [done | by intros (u & ? & _)].
  - rewrite bool_decide_eq_true. split.
    + intros Hin. by exists u.
    + intros (u' & [= <-] & Hin). done.
Qed.

Lemma user_is_owner_false c build :
  ¬ Owner c build → user_is_owner c build = false.
Proof.
  intros Hno. apply not_true_is_false. by rewrite user_is_owner_spec.
Qed.

(** Once lines 143-153 have resolved the build, what is left is the decision
    of lines 155-174. *)
Lemma can_user_access_build_resolved param_name ctx db build :
  names_build int param_name ctx db build →
  can_user_access_build int param_name ctx db =
    if negb (user_is_owner (current_user ctx) build) then
      if negb (String.eqb (method (request ctx)) "GET") then abort 403
      else if Build.public build then Return (Granted build)
      else if is_authenticated (current_user ctx) then abort 403
      else Return (Denied (LoginRedirect (url (request ctx))))
    else Return (Granted build).
Proof.
  intros (build_id & Hid & Hnz & Hbuild).
  unfold can_user_access_build. rewrite Hid.
  apply Z.eqb_neq in Hnz. rewrite Hnz. simpl. by rewrite Hbuild.
Qed.

(** A build id of zero counts as missing, whoever asks. *)
Lemma can_user_access_build_zero param_name ctx db :
  py_or (get_int int (args (request ctx)) param_name)
        (get_int int (form (request ctx)) param_name) = Some 0 →
  can_user_access_build int param_name ctx db = abort 400.
Proof. intros Hid. unfold can_user_access_build. by rewrite Hid. Qed.

(** C1: when the request resolves to a build and the session's user is
    authenticated and among the build's owners, [can_user_access_build]
    returns the build and no response, whatever the method and whatever the
    build's public flag. *)
Theorem owner_is_granted param_name ctx db build u :
  names_build int param_name ctx db build →
  current_user ctx = LoggedIn u →
  User.id u ∈ Build.owners build →
  can_user_access_build int param_name ctx db = Return (Granted build).
Proof.
  intros Hres Hu Hin.
  rewrite (can_user_access_build_resolved _ _ _ _ Hres).
  assert (user_is_owner (current_user ctx) build = true) as ->; [|done].
  apply user_is_owner_spec. by exists u.
Qed.

(** C2: for a caller who is not an owner of the build the request resolves
    to, anonymous or not, every method other than GET is answered with 403,
    public build or not, and GET on a public build returns the build. *)
Theorem non_owner_public_build param_name ctx db build :
  names_build int param_name ctx db build →
  ¬ Owner (current_user ctx) build →
  (method (request ctx) ≠ "GET" →
     can_user_access_build int param_name ctx db = abort 403)
  ∧ (method (request ctx) = "GET" → Build.public build = true →
     can_user_access_build int param_name ctx db = Return (Granted build)).
Proof.
  intros Hres Hno.
  rewrite (can_user_access_build_resolved _ _ _ _ Hres).
  rewrite (user_is_owner_false _ _ Hno). simpl. split.
  - intros Hm. apply String.eqb_neq in Hm. by rewrite Hm.
  - intros -> ->. done.
Qed.

(** C3: an anonymous caller issuing GET for an existing private build is
    handed the login redirect whose [next_url] is the request's URL, not a
    401 or a 403, and the decorator returns that response without calling
    the wrapped view. *)
Theorem anonymous_private_read_redirects param_name ctx db build f :
  names_build int param_name ctx db build →
  current_user ctx = AnonymousUser →
  method (request ctx) = "GET" →
  Build.public build = false →
  can_user_access_build int param_name ctx db
    = Return (Denied (LoginRedirect (url (request ctx))))
  ∧ build_access_required int param_name f ctx db
    = (Return (LoginRedirect (url (request ctx))), db).
Proof.
  intros Hres Hanon Hm Hpriv.
  assert (can_user_access_build int param_name ctx db
          = Return (Denied (LoginRedirect (url (request ctx))))) as Heq.
  { rewrite (can_user_access_build_resolved _ _ _ _ Hres).
    by rewrite Hanon, Hm, Hpriv. }
  split; [done|]. unfold build_access_required. by rewrite Heq.
Qed.

(** C4: an authenticated user who is not an owner of an existing private
    build is answered with 403 on every method, GET included; the login
    redirect is never the answer. *)
Theorem authenticated_non_owner_private_forbidden
    param_name ctx db build u :
  names_build int param_name ctx db build →
  current_user ctx = LoggedIn u →
  User.id u ∉ Build.owners build →
  Build.public build = false →
  can_user_access_build int param_name ctx db = abort 403.
Proof.
  intros Hres Hu Hnot Hpriv.
  rewrite (can_user_access_build_resolved _ _ _ _ Hres).
  rewrite user_is_owner_false.
  - rewrite Hu, Hpriv. simpl. by destruct (String.eqb _ _).
  - intros (u' & Heq & Hin). rewrite Hu in Heq. by injection Heq as <-.
Qed.

(** ** The API-key guard *)

(** Line 214 reads the global name [auth], which the module never binds: the
    guard raises before it looks at the request. *)
Lemma api_key_required_raises f ctx db :
  api_key_required int f ctx db = (Raise (NameError "auth"), db).
Proof. reflexivity. Qed.

(** Lines 220-233 on credentials that name an active key and carry its
    secret: what is left is the scope check of lines 235-250. *)
Lemma api_key_checks_valid auth_header api_key f ctx db :
  api_keys db !! username auth_header = Some api_key →
  ApiKey.active api_key = true →
  password auth_header = Some (ApiKey.secret api_key) →
  api_key_checks int (Some auth_header) f ctx db =
    let build_id := get_int int (form (request ctx)) "build_id" in
    if negb (ApiKey.superuser api_key) then
      if truthy_int build_id
         && bool_decide (ApiKey.build_id api_key = build_id)
      then
        match build_id ≫= (λ b, builds db !! b) with
        | None => (abort 404, db)
        | Some _ => f ctx db
        end
      else (abort 403, db)
    else f ctx db.
Proof.
  intros Hkey Hactive Hpw. unfold api_key_checks.
  rewrite Hkey, Hactive, Hpw. simpl.
  by rewrite bool_decide_eq_true_2.
Qed.

(** Lines 235-250 for a key that is not a superuser key: a request whose
    [build_id] is present and equal to the key's reaches the view when the
    build exists and is answered with 404 when it does not; any other
    [build_id], a missing one and zero included, is answered with 403. *)
Lemma api_key_checks_scope auth_header api_key f ctx db :
  api_keys db !! username auth_header = Some api_key →
  ApiKey.active api_key = true →
  password auth_header = Some (ApiKey.secret api_key) →
  ApiKey.superuser api_key = false →
  (∀ b build, get_int int (form (request ctx)) "build_id" = Some b →
     b ≠ 0 → ApiKey.build_id api_key = Some b →
     builds db !! b = Some build →
     api_key_checks int (Some auth_header) f ctx db = f ctx db)
  ∧ (∀ b, get_int int (form (request ctx)) "build_id" = Some b →
     b ≠ 0 → ApiKey.build_id api_key = Some b →
     builds db !! b = None →
     api_key_checks int (Some auth_header) f ctx db = (abort 404, db))
  ∧ (get_int int (form (request ctx)) "build_id" ≠ ApiKey.build_id api_key →
     api_key_checks int (Some auth_header) f ctx db = (abort 403, db))
  ∧ (truthy_int (get_int int (form (request ctx)) "build_id") = false →
     api_key_checks int (Some auth_header) f ctx db = (abort 403, db)).
Proof.
  intros Hkey Hactive Hpw Hsuper.
  rewrite (api_key_checks_valid _ _ _ _ _ Hkey Hactive Hpw).
  rewrite Hsuper. simpl. repeat split.
  - intros b build -> Hnz -> Hbuild. simpl.
    apply Z.eqb_neq in Hnz. rewrite Hnz. simpl.
    by rewrite bool_decide_eq_true_2, Hbuild.
  - intros b -> Hnz -> Hbuild. simpl.
    apply Z.eqb_neq in Hnz. rewrite Hnz. simpl.
    by rewrite bool_decide_eq_true_2, Hbuild.
  - intros Hne. rewrite (bool_decide_eq_false_2 _); [|done].
    by rewrite andb_false_r.
  - intros ->. done.
Qed.

(** Lines 237 and 250: a superuser key skips the scope check. *)
Lemma api_key_checks_superuser auth_header api_key f ctx db :
  api_keys db !! username auth_header = Some api_key →
  ApiKey.active api_key = true →
  password auth_header = Some (ApiKey.secret api_key) →
  ApiKey.superuser api_key = true →
  api_key_checks int (Some auth_header) f ctx db = f ctx db.
Proof.
  intros Hkey Hactive Hpw Hsuper.
  rewrite (api_key_checks_valid _ _ _ _ _ Hkey Hactive Hpw).
  by rewrite Hsuper.
Qed.

(** Lines 225-227: credentials that name an inactive key are answered with
    403 before the secret is compared. *)
Lemma api_key_checks_inactive auth_header api_key f ctx db :
  api_keys db !! username auth_header = Some api_key →
  ApiKey.active api_key = false →
  api_key_checks int (Some auth_header) f ctx db = (abort 403, db).
Proof.
  intros Hkey Hactive. unfold api_key_checks. by rewrite Hkey, Hactive.
Qed.

(** C7, as the code has it: for credentials that name an active key with no
    [build_id] and carry its secret, lines 220-250 reach the view exactly
    when the key is a superuser key; a key that is not is answered with 403
    whatever [build_id] the request carries. *)
Theorem api_key_without_build_id auth_header api_key f ctx db :
  api_keys db !! username auth_header = Some api_key →
  ApiKey.active api_key = true →
  password auth_header = Some (ApiKey.secret api_key) →
  ApiKey.build_id api_key = None →
  api_key_checks int (Some auth_header) f ctx db =
    if ApiKey.superuser api_key then f ctx db else (abort 403, db).
Proof.
  intros Hkey Hactive Hpw Hnone.
  rewrite (api_key_checks_valid _ _ _ _ _ Hkey Hactive Hpw).
  destruct (ApiKey.superuser api_key); simpl; [done|].
  rewrite Hnone.
  destruct (get_int int (form (request ctx)) "build_id") as [b|];
    [|done].
  rewrite (bool_decide_eq_false_2 (None = Some b)); [|done].
  by rewrite andb_false_r.
Qed.

(** ** Revocation *)

(** Lines 303-311 on a validated form that names a key of the build. *)
Lemma revoke_api_key_deactivates form build ctx db api_key :
  RevokeApiKeyForm.validate_on_submit form = true →
  api_keys db !! RevokeApiKeyForm.id_data form = Some api_key →
  ApiKey.build_id api_key = Some (Build.id build) →
  revoke_api_key form build ctx db =
    (Return (Redirect (UrlFor "manage_api_keys" (Build.id build))),
     mkDB (users db) (builds db)
          (<[RevokeApiKeyForm.id_data form := ApiKey.deactivate api_key]>
             (api_keys db))).
Proof.
  intros Hvalid Hkey Hbuild. unfold revoke_api_key.
  rewrite Hvalid, Hkey. by rewrite bool_decide_eq_true_2.
Qed.

(** No write of this module turns an inactive key into an active one, or
    removes it. *)
Lemma step_keeps_inactive db db' key_id api_key :
  step GOOGLE_OAUTH2 db db' →
  api_keys db !! key_id = Some api_key →
  ApiKey.active api_key = false →
  ∃ api_key', api_keys db' !! key_id = Some api_key'
              ∧ ApiKey.active api_key' = false.
Proof.
  intros Hstep Hkey Hactive.
  destruct Hstep as [result_dict ctx db|create_form build ctx db
                    |form build ctx db].
  - unfold login_auth.
    destruct (users db !! _); simpl; by exists api_key.
  - unfold manage_api_keys.
    destruct (CreateApiKeyForm.validate_on_submit _); simpl;
      by exists api_key.
  - unfold revoke_api_key.
    destruct (RevokeApiKeyForm.validate_on_submit _); simpl;
      [|by exists api_key].
    destruct (api_keys db !! RevokeApiKeyForm.id_data form)
      as [revoked|] eqn:Hrevoked; simpl; [|by exists api_key].
    destruct (bool_decide _); simpl; [|by exists api_key].
    destruct (decide (RevokeApiKeyForm.id_data form = key_id)) as [<-|Hne].
    + exists (ApiKey.deactivate revoked). by rewrite lookup_insert_eq.
    + exists api_key. by rewrite lookup_insert_ne.
Qed.

Lemma inactive_forever db db' key_id api_key :
  rtc (step GOOGLE_OAUTH2) db db' →
  api_keys db !! key_id = Some api_key →
  ApiKey.active api_key = false →
  ∃ api_key', api_keys db' !! key_id = Some api_key'
              ∧ ApiKey.active api_key' = false.
Proof.
  intros Hsteps. revert api_key.
  induction Hsteps as [db|db db1 db' Hstep _ IH]; intros api_key Hkey Hactive.
  - by exists api_key.
  - destruct (step_keeps_inactive _ _ _ _ Hstep Hkey Hactive)
      as (api_key1 & Hkey1 & Hactive1).
    by apply (IH api_key1).
Qed.

(** Past the test for a missing header, a key that was once inactive is
    answered with 403 after any number of writes of this module, whatever
    secret the credentials carry. *)
Lemma revoked_key_refused_forever db db' auth_header api_key f ctx :
  rtc (step GOOGLE_OAUTH2) db db' →
  api_keys db !! username auth_header = Some api_key →
  ApiKey.active api_key = false →
  api_key_checks int (Some auth_header) f ctx db' = (abort 403, db').
Proof.
  intros Hsteps Hkey Hactive.
  destruct (inactive_forever _ _ _ _ Hsteps Hkey Hactive)
    as (api_key' & Hkey' & Hactive').
  by apply (api_key_checks_inactive _ api_key').
Qed.

(** C10: on a validated revocation form whose key id names no stored key,
    [revoke_api_key] reads [build_id] off the absent key and raises instead
    of answering with a 403 or a 404, leaving the database as it was; when
    the key is in the table the view never raises that error. *)
Theorem revoke_api_key_absent_key form build ctx db :
  RevokeApiKeyForm.validate_on_submit form = true →
  (api_keys db !! RevokeApiKeyForm.id_data form = None →
     revoke_api_key form build ctx db
       = (Raise (AttributeError "build_id"), db))
  ∧ (is_Some (api_keys db !! RevokeApiKeyForm.id_data form) →
     ∀ attr, (revoke_api_key form build ctx db).1
             ≠ Raise (AttributeError attr)).
Proof.
  intros Hvalid. unfold revoke_api_key. rewrite Hvalid. split.
  - by intros ->.
  - intros [api_key ->] attr. by destruct (bool_decide _).
Qed.

(** ** First login *)

Lemma login_auth_existing result_dict ctx db user :
  users db !! (GOOGLE_OAUTH2 +:+ ":" +:+ info_id result_dict) = Some user →
  login_auth GOOGLE_OAUTH2 result_dict ctx db
    = mkLogin user (Redirect (Url (args (request ctx) !! "state"))) db.
Proof. intros Huser. unfold login_auth. by rewrite Huser. Qed.

Lemma login_auth_registered result_dict ctx db :
  let first := login_auth GOOGLE_OAUTH2 result_dict ctx db in
  users (login_db first) !! (GOOGLE_OAUTH2 +:+ ":" +:+ info_id result_dict)
    = Some (logged_in first).
Proof.
  simpl. unfold login_auth.
  destruct (users db !! _) as [user|] eqn:Huser; simpl; [done|].
  by rewrite lookup_insert_eq.
Qed.

(** C9: two logins in sequence with the same external identity hand the
    same user record to [login_user], so the same user id; the second login
    leaves the database as the first one left it, so no second record is
    made and the stored email address is the one of the first login even
    when the provider now reports another. *)
Theorem login_auth_twice subject email1 email2 ctx1 ctx2 db :
  let first := login_auth GOOGLE_OAUTH2 (mkUserInfo subject email1) ctx1 db in
  let second :=
    login_auth GOOGLE_OAUTH2 (mkUserInfo subject email2) ctx2
      (login_db first) in
  logged_in second = logged_in first
  ∧ User.id (logged_in second) = User.id (logged_in first)
  ∧ login_db second = login_db first
  ∧ users (login_db second) !! (GOOGLE_OAUTH2 +:+ ":" +:+ subject)
      = Some (logged_in first)
  ∧ User.email_address (logged_in second)
      = User.email_address (logged_in first).
Proof.
  intros first second.
  pose proof (login_auth_registered (mkUserInfo subject email1) ctx1 db)
    as Hreg.
  simpl in Hreg. fold first in Hreg.
  assert (second = mkLogin (logged_in first)
                     (Redirect (Url (args (request ctx2) !! "state")))
                     (login_db first)) as ->.
  { by apply login_auth_existing. }
  simpl. by repeat split.
Qed.

End Properties.

(** * The scenarios, evaluated *)

Lemma names_build5 r c :
  args r = {[ "id" := "5" ]} ∨ (args r = ∅ ∧ form r = {[ "id" := "5" ]}) →
  names_build int_ascii "id" (mkContext r c) sample_db build5.
Proof.
  intros Hr. exists 5. unfold get_int. simpl.
  destruct Hr as [-> | [-> ->]]; (split; [reflexivity|]); by split.
Qed.

Lemma names_build6 r c :
  args r = {[ "id" := "6" ]} ∨ (args r = ∅ ∧ form r = {[ "id" := "6" ]}) →
  names_build int_ascii "id" (mkContext r c) sample_db build6.
Proof.
  intros Hr. exists 6. unfold get_int. simpl.
  destruct Hr as [-> | [-> ->]]; (split; [reflexivity|]); by split.
Qed.

(** Scenario: build 5, private, owned by U1; U1 posts to it. *)
Lemma owner_is_granted_witness :
  can_user_access_build int_ascii "id"
    (mkContext (post_build "5") (LoggedIn U1)) sample_db
  = Return (Granted build5).
Proof.
  apply (owner_is_granted int_ascii "id" _ sample_db build5 U1).
  - apply names_build5. right. by split.
  - reflexivity.
  - unfold build5. simpl. by apply elem_of_singleton_2.
Defined.

(** Build 6 is public: an anonymous caller may read it, and U2, who does not
    own it, may not post to it. *)
Lemma non_owner_public_build_witness :
  can_user_access_build int_ascii "id"
    (mkContext (get_build "6") AnonymousUser) sample_db
  = Return (Granted build6)
  ∧ can_user_access_build int_ascii "id"
      (mkContext (post_build "6") (LoggedIn U2)) sample_db
    = abort 403.
Proof.
  split.
  - apply (non_owner_public_build int_ascii "id" _ sample_db build6).
    + apply names_build6. by left.
    + by intros (u & ? & _).
    + reflexivity.
    + reflexivity.
  - apply (non_owner_public_build int_ascii "id" _ sample_db build6).
    + apply names_build6. right. by split.
    + intros (u & [= <-] & Hin). unfold build6 in Hin. simpl in Hin.
      by apply elem_of_singleton_1 in Hin.
    + done.
Defined.

(** Scenario: build 5, GET, anonymous caller. *)
Lemma anonymous_private_read_redirects_witness :
  can_user_access_build int_ascii "id"
    (mkContext (get_build "5") AnonymousUser) sample_db
  = Return (Denied (LoginRedirect "/build?id=5"))
  ∧ build_access_required int_ascii "id" (λ _, handler)
      (mkContext (get_build "5") AnonymousUser) sample_db
    = (Return (LoginRedirect "/build?id=5"), sample_db).
Proof.
  apply (anonymous_private_read_redirects int_ascii "id"
           (mkContext (get_build "5") AnonymousUser) sample_db build5).
  - apply names_build5. by left.
  - reflexivity.
  - reflexivity.
  - reflexivity.
Defined.

(** Scenario: build 5, GET, caller U2 who is not an owner. *)
Lemma authenticated_non_owner_private_forbidden_witness :
  can_user_access_build int_ascii "id"
    (mkContext (get_build "5") (LoggedIn U2)) sample_db
  = abort 403.
Proof.
  apply (authenticated_non_owner_private_forbidden int_ascii "id" _
           sample_db build5 U2).
  - apply names_build5. by left.
  - reflexivity.
  - intros Hin. unfold build5 in Hin. simpl in Hin.
    by apply elem_of_singleton_1 in Hin.
  - reflexivity.
Defined.

(** C5: a request without an authorization header is answered with neither
    a 401 nor a challenge: the guard raises [NameError] on the name [auth],
    for every wrapped view and every database. *)
Theorem api_key_required_no_header f db :
  authorization api_post_no_header = None
  ∧ api_key_required int_ascii f
      (mkContext api_post_no_header AnonymousUser) db
    = (Raise (NameError "auth"), db).
Proof. split; [reflexivity | apply api_key_required_raises]. Qed.

(** C6: key k1 of build 5, presented with its secret and [build_id] 5, does
    not reach the wrapped view: the guard raises [NameError] on the name
    [auth]; lines 220-250, had they been reached, would have called the
    view. *)
Theorem api_key_required_scoped_key :
  let ctx := mkContext (api_post "k1" "s1" (Some "5")) AnonymousUser in
  api_key_required int_ascii handler ctx sample_db
    = (Raise (NameError "auth"), sample_db)
  ∧ api_key_required int_ascii handler ctx sample_db ≠ handler ctx sample_db
  ∧ api_key_checks int_ascii (authorization (request ctx)) handler ctx
      sample_db
    = handler ctx sample_db.
Proof.
  intros ctx. split; [apply api_key_required_raises|].
  split; [by rewrite api_key_required_raises | by vm_compute].
Qed.

(** Key k3 has no build and is a superuser key: it reaches the view; key k2
    has no build and is not: 403. *)
Lemma api_key_without_build_id_witness :
  api_key_checks int_ascii (Some (mkAuthorization "k3" (Some "s3"))) handler
    (mkContext (api_post "k3" "s3" None) AnonymousUser) sample_db
  = (Return (RenderTemplate "ok"), sample_db)
  ∧ api_key_checks int_ascii (Some (mkAuthorization "k2" (Some "s2"))) handler
      (mkContext (api_post "k2" "s2" (Some "5")) AnonymousUser) sample_db
    = (abort 403, sample_db).
Proof.
  split.
  - apply (api_key_without_build_id int_ascii
             (mkAuthorization "k3" (Some "s3")) k3); reflexivity.
  - apply (api_key_without_build_id int_ascii
             (mkAuthorization "k2" (Some "s2")) k2); reflexivity.
Defined.

(** C7 fails as stated: key k2 is active, has no build and is presented with
    its secret, yet a request without [build_id] does not get through.  Lines
    220-250 answer 403, and the guard as a whole does not call the view
    either. *)
Lemma api_key_without_build_id_refused :
  let ctx := mkContext (api_post "k2" "s2" None) AnonymousUser in
  api_keys sample_db !! "k2" = Some k2
  ∧ ApiKey.build_id k2 = None
  ∧ api_key_checks int_ascii (authorization (request ctx)) handler ctx
      sample_db
    = (abort 403, sample_db)
  ∧ api_key_required int_ascii handler ctx sample_db ≠ handler ctx sample_db.
Proof.
  intros ctx. split; [by vm_compute|]. split; [done|].
  split; [by vm_compute|]. by rewrite api_key_required_raises.
Qed.

(** C8: after U1 revokes key k1 the key is inactive, and a request that
    presents it is answered with [NameError] on the name [auth] instead of
    403; lines 220-250, had they been reached, would have answered 403. *)
Theorem api_key_required_revoked_key :
  let db' :=
    (revoke_api_key revoke_k1 build5
       (mkContext (post_build "5") (LoggedIn U1)) sample_db).2 in
  let ctx := mkContext (api_post "k1" "s1" (Some "5")) AnonymousUser in
  ApiKey.active <$> api_keys sample_db !! "k1" = Some true
  ∧ ApiKey.active <$> api_keys db' !! "k1" = Some false
  ∧ api_key_required int_ascii handler ctx db'
    = (Raise (NameError "auth"), db')
  ∧ api_key_checks int_ascii (authorization (request ctx)) handler ctx db'
    = (abort 403, db').
Proof.
  intros db' ctx. split; [by vm_compute|]. split; [by vm_compute|].
  split; [apply api_key_required_raises | by vm_compute].
Qed.

(** A validated revocation form for a key id that is not in the table. *)
Lemma revoke_api_key_absent_key_witness :
  revoke_api_key (RevokeApiKeyForm.mk true "k9") build5
    (mkContext (post_build "5") (LoggedIn U1)) sample_db
  = (Raise (AttributeError "build_id"), sample_db).
Proof.
  apply (revoke_api_key_absent_key (RevokeApiKeyForm.mk true "k9") build5
           (mkContext (post_build "5") (LoggedIn U1)) sample_db);
    reflexivity.
Defined.

(** * The decision table of the access evaluation *)

Section AccessTable.

Variable int : string → option Z.

Lemma names_build_functional param_name ctx db build build' :
  names_build int param_name ctx db build →
  names_build int param_name ctx db build' →
  build = build'.
Proof.
  intros (b & Hid & _ & Hb) (b' & Hid' & _ & Hb'). congruence.
Qed.

Lemma names_build_requested param_name ctx db build :
  names_build int param_name ctx db build →
  truthy_int (requested_build_id int param_name ctx) = true.
Proof.
  intros (b & Hid & Hnz & _). unfold requested_build_id. rewrite Hid.
  simpl. by apply negb_true_iff, Z.eqb_neq.
Qed.

(** Lines 143-153: the three ways the lookup of the build can end. *)
Lemma can_user_access_build_lookup param_name ctx db :
  (truthy_int (requested_build_id int param_name ctx) = false
   ∧ can_user_access_build int param_name ctx db = abort 400)
  ∨ (∃ b, requested_build_id int param_name ctx = Some b ∧ b ≠ 0
          ∧ builds db !! b = None
          ∧ can_user_access_build int param_name ctx db = abort 404)
  ∨ (∃ build, names_build int param_name ctx db build).
Proof.
  unfold can_user_access_build, requested_build_id, names_build.
  destruct (py_or _ _) as [b|] eqn:Hid; [|by left].
  destruct (Z.eqb_spec b 0) as [->|Hnz]; simpl; [by left|].
  destruct (builds db !! b) as [build|] eqn:Hb.
  - right. right. by exists build, b.
  - right. left. by exists b.
Qed.

(** Lines 155-174: the three ways the decision on a resolved build can
    end. *)
Lemma can_user_access_build_decision param_name ctx db build :
  names_build int param_name ctx db build →
  (may_access ctx build
   ∧ can_user_access_build int param_name ctx db = Return (Granted build))
  ∨ (¬ Owner (current_user ctx) build
     ∧ (method (request ctx) ≠ "GET"
        ∨ (Build.public build = false
           ∧ is_authenticated (current_user ctx) = true))
     ∧ can_user_access_build int param_name ctx db = abort 403)
  ∨ (current_user ctx = AnonymousUser
     ∧ method (request ctx) = "GET"
     ∧ Build.public build = false
     ∧ can_user_access_build int param_name ctx db
       = Return (Denied (LoginRedirect (url (request ctx))))).
Proof.
  intros Hres. rewrite (can_user_access_build_resolved _ _ _ _ _ Hres).
  unfold may_access.
  destruct (user_is_owner (current_user ctx) build) eqn:Howner; simpl.
  { left. split; [|done]. left. by apply user_is_owner_spec. }
  assert (¬ Owner (current_user ctx) build) as Hno.
  { intros Hown. apply user_is_owner_spec in Hown. congruence. }
  destruct (String.eqb_spec (method (request ctx)) "GET") as [Hm|Hm]; simpl.
  - destruct (Build.public build) eqn:Hpub.
    + left. split; [|done]. by right.
    + destruct (current_user ctx) as [|u] eqn:Hu; simpl.
      * right. right. done.
      * right. left. split; [done|]. split; [|done]. by right.
  - right. left. split; [done|]. split; [|done]. by left.
Qed.

Lemma may_access_not_refused ctx build :
  may_access ctx build →
  ¬ (¬ Owner (current_user ctx) build
     ∧ (method (request ctx) ≠ "GET"
        ∨ (Build.public build = false
           ∧ is_authenticated (current_user ctx) = true))).
Proof.
  intros [Hown|[Hm Hpub]] [Hno [Hnm|[Hpriv _]]]; congruence.
Qed.

(** X1: the evaluation returns a build exactly when the request resolves to
    that build and the caller owns it or reads it (GET) while it is
    public. *)
Theorem granted_iff param_name ctx db build :
  can_user_access_build int param_name ctx db = Return (Granted build)
  ↔ names_build int param_name ctx db build ∧ may_access ctx build.
Proof.
  split.
  - intros Hgranted.
    destruct (can_user_access_build_lookup param_name ctx db)
      as [[_ H]|[(b & _ & _ & _ & H)|(build' & Hres)]];
      [rewrite H in Hgranted; discriminate..|].
    destruct (can_user_access_build_decision _ _ _ _ Hres)
      as [[Hmay H]|[(_ & _ & H)|(_ & _ & _ & H)]];
      rewrite H in Hgranted; try discriminate.
    injection Hgranted as <-. done.
  - intros [Hres Hmay].
    destruct (can_user_access_build_decision _ _ _ _ Hres)
      as [[_ H]|[(Hno & Hwhy & _)|(Hanon & Hm & Hpriv & _)]]; [done|..].
    + by destruct (may_access_not_refused _ _ Hmay).
    + destruct Hmay as [(u & Hu & _)|[_ Hpub]]; congruence.
Qed.

(** X2: the answer is 400 exactly when neither the query string nor the form
    yields a build id that counts as present: missing, not an integer, or
    zero. *)
Theorem bad_request_iff param_name ctx db :
  can_user_access_build int param_name ctx db = abort 400
  ↔ truthy_int (requested_build_id int param_name ctx) = false.
Proof.
  split.
  - intros H400.
    destruct (can_user_access_build_lookup param_name ctx db)
      as [[Hfalse _]|[(b & _ & _ & _ & H)|(build & Hres)]]; [done|..].
    + rewrite H in H400. discriminate.
    + destruct (can_user_access_build_decision _ _ _ _ Hres)
        as [[_ H]|[(_ & _ & H)|(_ & _ & _ & H)]];
        rewrite H in H400; discriminate.
  - intros Hfalse.
    destruct (can_user_access_build_lookup param_name ctx db)
      as [[_ H]|[(b & Hid & Hnz & _)|(build & Hres)]]; [done|..].
    + rewrite Hid in Hfalse. simpl in Hfalse.
      apply negb_false_iff, Z.eqb_eq in Hfalse. done.
    + apply names_build_requested in Hres. congruence.
Qed.

(** X3: the answer is 404 exactly when the request carries a build id that
    counts as present and the build table has no such build. *)
Theorem not_found_iff param_name ctx db :
  can_user_access_build int param_name ctx db = abort 404
  ↔ ∃ b, requested_build_id int param_name ctx = Some b ∧ b ≠ 0
         ∧ builds db !! b = None.
Proof.
  split.
  - intros H404.
    destruct (can_user_access_build_lookup param_name ctx db)
      as [[_ H]|[(b & Hid & Hnz & Hb & _)|(build & Hres)]].
    + rewrite H in H404. discriminate.
    + by exists b.
    + destruct (can_user_access_build_decision _ _ _ _ Hres)
        as [[_ H]|[(_ & _ & H)|(_ & _ & _ & H)]];
        rewrite H in H404; discriminate.
  - intros (b & Hid & Hnz & Hb).
    destruct (can_user_access_build_lookup param_name ctx db)
      as [[Hfalse _]|[(b' & _ & _ & _ & H)|(build & b' & Hid' & _ & Hb')]];
      [|done|].
    + rewrite Hid in Hfalse. simpl in Hfalse.
      apply negb_false_iff, Z.eqb_eq in Hfalse. done.
    + unfold requested_build_id in Hid. congruence.
Qed.

(** X4: the answer is 403 exactly when the request resolves to a build the
    caller does not own and either the method is not GET, or the build is
    private and the caller is logged in. *)
Theorem forbidden_iff param_name ctx db :
  can_user_access_build int param_name ctx db = abort 403
  ↔ ∃ build, names_build int param_name ctx db build
             ∧ ¬ Owner (current_user ctx) build
             ∧ (method (request ctx) ≠ "GET"
                ∨ (Build.public build = false
                   ∧ is_authenticated (current_user ctx) = true)).
Proof.
  split.
  - intros H403.
    destruct (can_user_access_build_lookup param_name ctx db)
      as [[_ H]|[(b & _ & _ & _ & H)|(build & Hres)]];
      [rewrite H in H403; discriminate..|].
    exists build. split; [done|].
    destruct (can_user_access_build_decision _ _ _ _ Hres)
      as [[_ H]|[(Hno & Hwhy & _)|(_ & _ & _ & H)]]; [|done|];
      rewrite H in H403; discriminate.
  - intros (build & Hres & Hno & Hwhy).
    destruct (can_user_access_build_decision _ _ _ _ Hres)
      as [[Hmay _]|[(_ & _ & H)|(Hanon & Hm & Hpriv & _)]]; [|done|].
    + by destruct (may_access_not_refused _ _ Hmay).
    + destruct Hwhy as [Hnm|[_ Hauth]]; [done|].
      rewrite Hanon in Hauth. discriminate.
Qed.

(** X5: a response is handed back instead of a build exactly when an
    anonymous caller issues GET for a private build, and the response is
    then the login redirect to the request's own URL; a logged-in caller is
    never sent to the login page. *)
Theorem login_redirect_iff param_name ctx db response :
  can_user_access_build int param_name ctx db = Return (Denied response)
  ↔ ∃ build, names_build int param_name ctx db build
             ∧ current_user ctx = AnonymousUser
             ∧ method (request ctx) = "GET"
             ∧ Build.public build = false
             ∧ response = LoginRedirect (url (request ctx)).
Proof.
  split.
  - intros Hdenied.
    destruct (can_user_access_build_lookup param_name ctx db)
      as [[_ H]|[(b & _ & _ & _ & H)|(build & Hres)]];
      [rewrite H in Hdenied; discriminate..|].
    exists build. split; [done|].
    destruct (can_user_access_build_decision _ _ _ _ Hres)
      as [[_ H]|[(_ & _ & H)|(Hanon & Hm & Hpriv & H)]];
      rewrite H in Hdenied; try discriminate.
    by injection Hdenied as <-.
  - intros (build & Hres & Hanon & Hm & Hpriv & ->).
    destruct (can_user_access_build_decision _ _ _ _ Hres)
      as [[Hmay _]|[(_ & Hwhy & _)|(_ & _ & _ & H)]]; [..|done].
    + destruct Hmay as [(u & Hu & _)|[_ Hpub]]; congruence.
    + destruct Hwhy as [Hnm|[_ Hauth]]; [done|].
      rewrite Hanon in Hauth. discriminate.
Qed.

End AccessTable.

(** * Where the build id comes from, and what the decorator does with the
      decision *)

Section Decorator.

Variable int : string → option Z.

(** X6: a build id in the query string that counts as present decides the
    evaluation alone: the form is not consulted. *)
Theorem query_string_wins param_name m u a f1 f2 h c db b :
  get_int int a param_name = Some b →
  b ≠ 0 →
  can_user_access_build int param_name
    (mkContext (mkRequest m u a f1 h) c) db
  = can_user_access_build int param_name
      (mkContext (mkRequest m u a f2 h) c) db.
Proof.
  intros Hid Hnz. unfold can_user_access_build, py_or. simpl.
  rewrite Hid. simpl. apply Z.eqb_neq in Hnz. by rewrite Hnz.
Qed.

(** X7: when the query string yields no build id that counts as present
    (none, not an integer, or zero) the evaluation is the one of the same
    request without a query string: the form decides. *)
Theorem form_is_the_fallback param_name m u a f h c db :
  truthy_int (get_int int a param_name) = false →
  can_user_access_build int param_name
    (mkContext (mkRequest m u a f h) c) db
  = can_user_access_build int param_name
      (mkContext (mkRequest m u ∅ f h) c) db.
Proof.
  intros Hfalse. unfold can_user_access_build, py_or. simpl.
  rewrite Hfalse. unfold get_int at 2 4. by rewrite lookup_empty.
Qed.

Lemma can_user_access_build_granted param_name ctx db build :
  can_user_access_build int param_name ctx db = Return (Granted build) →
  names_build int param_name ctx db build ∧ may_access ctx build.
Proof.
  intros Hgranted.
  destruct (can_user_access_build_lookup int param_name ctx db)
    as [[_ H]|[(b & _ & _ & _ & H)|(build' & Hres)]];
    [rewrite H in Hgranted; discriminate..|].
  destruct (can_user_access_build_decision int _ _ _ _ Hres)
    as [[Hmay H]|[(_ & _ & H)|(_ & _ & _ & H)]];
    rewrite H in Hgranted; try discriminate.
  injection Hgranted as <-. done.
Qed.

(** X8: unless the request resolves to a build the caller owns or reads
    (GET) while it is public, the decorator answers without the wrapped
    view: its outcome is the same for every view, and the database is left
    as it was. *)
Theorem build_access_required_guards param_name f g ctx db :
  (∀ build, names_build int param_name ctx db build →
            ¬ may_access ctx build) →
  build_access_required int param_name f ctx db
    = build_access_required int param_name g ctx db
  ∧ (build_access_required int param_name f ctx db).2 = db.
Proof.
  intros Hno. unfold build_access_required.
  destruct (can_user_access_build int param_name ctx db)
    as [[response|build]|e] eqn:Hresult; [done| |done].
  apply can_user_access_build_granted in Hresult as [Hres Hmay].
  by destruct (Hno build).
Qed.

(** X9: when the request resolves to a build the caller may access, the
    decorator's outcome is the wrapped view's, called with the build stored
    under the requested id. *)
Theorem build_access_required_calls param_name f ctx db build :
  names_build int param_name ctx db build →
  may_access ctx build →
  build_access_required int param_name f ctx db = f build ctx db.
Proof.
  intros Hres Hmay. unfold build_access_required.
  destruct (can_user_access_build_decision int _ _ _ _ Hres)
    as [[_ H]|[(Hno & Hwhy & _)|(Hanon & Hm & Hpriv & _)]].
  - by rewrite H.
  - by destruct (may_access_not_refused _ _ Hmay).
  - destruct Hmay as [(u & Hu & _)|[_ Hpub]]; congruence.
Qed.

End Decorator.

(** * The API-key guard and the checks behind it *)

Section ApiKeys.

Variable int : string → option Z.

(** X10: no request gets past the API-key guard.  With or without
    credentials, whatever the wrapped view and the database, the guard ends
    in [NameError] on the name [auth] and writes nothing. *)
Theorem api_key_required_lets_nothing_through f ctx db :
  (api_key_required int f ctx db).1 = Raise (NameError "auth")
  ∧ (api_key_required int f ctx db).2 = db.
Proof. by rewrite api_key_required_raises. Qed.

(** X11: when the header names an active key and carries its secret, and
    the key is a superuser key or its build is the stored build the form
    names, lines 220-250 hand over to the wrapped view. *)
Theorem api_key_checks_admits auth_header f ctx db :
  admits int auth_header ctx db →
  api_key_checks int auth_header f ctx db = f ctx db.
Proof.
  intros (hdr & api_key & -> & Hkey & Hactive & Hpw & Hscope).
  rewrite (api_key_checks_valid _ _ _ _ _ _ Hkey Hactive Hpw).
  simpl.
  destruct Hscope as [Hsuper|(b & build & Hid & Hnz & Hkb & Hb)];
    [by rewrite Hsuper|].
  destruct (ApiKey.superuser api_key); simpl; [done|].
  rewrite Hid, Hkb. simpl. apply Z.eqb_neq in Hnz. rewrite Hnz. simpl.
  by rewrite bool_decide_eq_true_2, Hb.
Qed.

Local Ltac answer_with e :=
  exists e; split; [repeat (rewrite elem_of_cons); tauto | done].

(** X12: in every other case lines 220-250 answer without the wrapped view:
    with 403, with 404, or with the attribute error of an absent header, the
    same for every view, and the database is left as it was. *)
Theorem api_key_checks_refuses auth_header ctx db :
  ¬ admits int auth_header ctx db →
  ∃ e, e ∈ [HTTPException 403; HTTPException 404; AttributeError "username"]
       ∧ ∀ f, api_key_checks int auth_header f ctx db = (Raise e, db).
Proof.
  intros Hno.
  destruct auth_header as [hdr|]; simpl;
    [|answer_with (AttributeError "username")].
  unfold api_key_checks.
  destruct (api_keys db !! username hdr) as [api_key|] eqn:Hkey;
    [|answer_with (HTTPException 403)].
  destruct (ApiKey.active api_key) eqn:Hactive; simpl;
    [|answer_with (HTTPException 403)].
  destruct (decide (Some (ApiKey.secret api_key) = password hdr))
    as [Hpw|Hpw].
  2: { rewrite (bool_decide_eq_false_2 _ Hpw).
       answer_with (HTTPException 403). }
  rewrite (bool_decide_eq_true_2 _ Hpw). simpl.
  destruct (ApiKey.superuser api_key) eqn:Hsuper; simpl.
  { destruct Hno. exists hdr, api_key. repeat split; try done. by left. }
  destruct (get_int int (form (request ctx)) "build_id") as [b|] eqn:Hid;
    simpl; [|answer_with (HTTPException 403)].
  destruct (Z.eqb_spec b 0) as [->|Hnz]; simpl;
    [answer_with (HTTPException 403)|].
  destruct (decide (ApiKey.build_id api_key = Some b)) as [Hkb|Hkb].
  2: { rewrite (bool_decide_eq_false_2 _ Hkb).
       answer_with (HTTPException 403). }
  rewrite (bool_decide_eq_true_2 _ Hkb).
  destruct (builds db !! b) as [build|] eqn:Hb.
  - destruct Hno. exists hdr, api_key. repeat split; try done.
    right. by exists b, build.
  - answer_with (HTTPException 404).
Qed.

(** X13: credentials that do not name an active key with the right secret
    are answered with 403 whatever the cause (unknown key id, inactive key,
    wrong or absent password) and whatever the form carries. *)
Theorem bad_credentials_forbidden hdr f ctx db :
  (∀ api_key, api_keys db !! username hdr = Some api_key →
              ApiKey.active api_key = false
              ∨ password hdr ≠ Some (ApiKey.secret api_key)) →
  api_key_checks int (Some hdr) f ctx db = (abort 403, db).
Proof.
  intros Hbad. unfold api_key_checks.
  destruct (api_keys db !! username hdr) as [api_key|] eqn:Hkey; [|done].
  destruct (Hbad api_key eq_refl) as [->|Hpw]; [done|].
  destruct (ApiKey.active api_key); simpl; [|done].
  rewrite bool_decide_eq_false_2; [done|]. congruence.
Qed.

(** X14: a validated key-creation form never stores a key: the view ends in
    [NameError] on the name [utils] and the database is left as it was. *)
Theorem manage_api_keys_creates_nothing create_form build ctx db :
  CreateApiKeyForm.validate_on_submit create_form = true →
  manage_api_keys create_form build ctx db = (Raise (NameError "utils"), db).
Proof. intros Hvalid. unfold manage_api_keys. by rewrite Hvalid. Qed.

End ApiKeys.

(** * What the views write *)

Section Writes.

Variable int : string → option Z.
Variable GOOGLE_OAUTH2 : string.

(** Lines 302-311: the key table after the view, row by row. *)
Lemma revoke_api_key_lookup form build ctx db k :
  api_keys (revoke_api_key form build ctx db).2 !! k = api_keys db !! k
  ∨ (RevokeApiKeyForm.id_data form = k
     ∧ ∃ api_key, api_keys db !! k = Some api_key
         ∧ ApiKey.build_id api_key = Some (Build.id build)
         ∧ api_keys (revoke_api_key form build ctx db).2 !! k
           = Some (ApiKey.deactivate api_key)).
Proof.
  unfold revoke_api_key.
  destruct (RevokeApiKeyForm.validate_on_submit form); [|by left].
  destruct (api_keys db !! RevokeApiKeyForm.id_data form)
    as [revoked|] eqn:Hrevoked; [|by left].
  destruct (decide (ApiKey.build_id revoked = Some (Build.id build)))
    as [Hb|Hb].
  2: { rewrite (bool_decide_eq_false_2 _ Hb). by left. }
  rewrite (bool_decide_eq_true_2 _ Hb). simpl.
  destruct (decide (RevokeApiKeyForm.id_data form = k)) as [<-|Hne].
  - right. split; [done|]. exists revoked. by rewrite lookup_insert_eq.
  - left. by rewrite lookup_insert_ne.
Qed.

Lemma revoke_api_key_tables form build ctx db :
  users (revoke_api_key form build ctx db).2 = users db
  ∧ builds (revoke_api_key form build ctx db).2 = builds db.
Proof.
  unfold revoke_api_key.
  destruct (RevokeApiKeyForm.validate_on_submit form); [|done].
  destruct (api_keys db !! _); [|done]. by destruct (bool_decide _).
Qed.

(** X15: whatever key id the form submits, a key that does not belong to the
    build the view was called with is left as it is; a key with no build can
    therefore not be revoked through this view at all. *)
Theorem revoke_api_key_spares_other_builds form build ctx db k api_key :
  api_keys db !! k = Some api_key →
  ApiKey.build_id api_key ≠ Some (Build.id build) →
  api_keys (revoke_api_key form build ctx db).2 !! k = Some api_key.
Proof.
  intros Hkey Hother.
  destruct (revoke_api_key_lookup form build ctx db k)
    as [->|(_ & revoked & Hrevoked & Hb & _)]; [done|].
  congruence.
Qed.

(** X16: revoking is idempotent: submitting the same form again, in any
    request context, gives the same outcome and the same database. *)
Theorem revoke_api_key_idempotent form build ctx ctx' db :
  revoke_api_key form build ctx' (revoke_api_key form build ctx db).2
  = revoke_api_key form build ctx db.
Proof.
  unfold revoke_api_key.
  destruct (RevokeApiKeyForm.validate_on_submit form); simpl; [|done].
  destruct (api_keys db !! RevokeApiKeyForm.id_data form)
    as [revoked|] eqn:Hrevoked; simpl; [|by rewrite Hrevoked].
  destruct (decide (ApiKey.build_id revoked = Some (Build.id build)))
    as [Hb|Hb].
  - rewrite (bool_decide_eq_true_2 _ Hb). simpl.
    rewrite lookup_insert_eq. simpl.
    rewrite (bool_decide_eq_true_2 _ Hb). simpl.
    by rewrite insert_insert_eq.
  - rewrite (bool_decide_eq_false_2 _ Hb). simpl.
    rewrite Hrevoked. by rewrite (bool_decide_eq_false_2 _ Hb).
Qed.

(** X17: behind the build decorator, on any method other than GET, an
    active key ends up inactive only when the caller owns the build the
    request names, the key belongs to that build and the form names the
    key. *)
Theorem only_an_owner_revokes form ctx db k api_key :
  method (request ctx) ≠ "GET" →
  api_keys db !! k = Some api_key →
  ApiKey.active api_key = true →
  ApiKey.active
    <$> api_keys (build_access_required int "build_id"
                    (revoke_api_key form) ctx db).2 !! k
    = Some false →
  ∃ build, names_build int "build_id" ctx db build
           ∧ Owner (current_user ctx) build
           ∧ ApiKey.build_id api_key = Some (Build.id build)
           ∧ RevokeApiKeyForm.id_data form = k.
Proof.
  intros Hm Hkey Hactive. unfold build_access_required.
  destruct (can_user_access_build int "build_id" ctx db)
    as [[response|build]|e] eqn:Hresult; simpl;
    [rewrite Hkey; simpl; congruence| |rewrite Hkey; simpl; congruence].
  apply can_user_access_build_granted in Hresult as [Hres Hmay].
  intros Hrevoked. exists build. split; [done|].
  split; [by destruct Hmay as [Hown|[Hget _]]|].
  destruct (revoke_api_key_lookup form build ctx db k)
    as [Hsame|(Hform & revoked & Hrev & Hb & _)].
  - rewrite Hsame, Hkey in Hrevoked. simpl in Hrevoked. congruence.
  - split; [congruence|done].
Qed.

(** One write, by cases: nothing, one new user row under its own id, or one
    key row replaced by its deactivation. *)
Lemma step_cases db db' :
  step GOOGLE_OAUTH2 db db' →
  db' = db
  ∨ (∃ user, users db !! User.id user = None
       ∧ db' = mkDB (<[User.id user := user]> (users db))
                    (builds db) (api_keys db))
  ∨ (∃ k api_key, api_keys db !! k = Some api_key
       ∧ db' = mkDB (users db) (builds db)
                    (<[k := ApiKey.deactivate api_key]> (api_keys db))).
Proof.
  intros [result_dict ctx db0|create_form build ctx db0|form build ctx db0].
  - unfold login_auth.
    destruct (users db0 !! _) as [user|] eqn:Huser; simpl.
    + left. by destruct db0.
    + right. left.
      by exists (User.mk (GOOGLE_OAUTH2 +:+ ":" +:+ info_id result_dict)
                   (info_email result_dict) false).
  - left. unfold manage_api_keys.
    by destruct (CreateApiKeyForm.validate_on_submit _).
  - unfold revoke_api_key.
    destruct (RevokeApiKeyForm.validate_on_submit form); [|by left].
    destruct (api_keys db0 !! RevokeApiKeyForm.id_data form)
      as [revoked|] eqn:Hrevoked; [|by left].
    destruct (bool_decide _); simpl; [|by left].
    right. right. by exists (RevokeApiKeyForm.id_data form), revoked.
Qed.

(** X18: no sequence of writes of this module changes the build table:
    builds, their public flags and their owners are out of its reach. *)
Theorem builds_never_written db db' :
  rtc (step GOOGLE_OAUTH2) db db' → builds db' = builds db.
Proof.
  induction 1 as [db|db db1 db' Hstep _ IH]; [done|].
  rewrite IH.
  by destruct (step_cases _ _ Hstep)
    as [->|[(user & _ & ->)|(k & api_key & _ & ->)]].
Qed.

(** X19: a user row, once stored, is there unchanged after any sequence of
    writes of this module. *)
Theorem users_never_change db db' user_id user :
  rtc (step GOOGLE_OAUTH2) db db' →
  users db !! user_id = Some user →
  users db' !! user_id = Some user.
Proof.
  induction 1 as [db|db db1 db' Hstep _ IH]; [done|].
  intros Huser. apply IH.
  destruct (step_cases _ _ Hstep)
    as [->|[(new & Hnew & ->)|(k & api_key & _ & ->)]]; simpl; [done| |done].
  rewrite lookup_insert_ne; [done|]. congruence.
Qed.

(** X20: after any sequence of writes of this module every key id holds
    what it held before or its deactivation: no key is created or deleted,
    no secret, build or superuser flag changes, and no key is
    reactivated. *)
Theorem api_keys_only_deactivate db db' k :
  rtc (step GOOGLE_OAUTH2) db db' →
  api_keys db' !! k = api_keys db !! k
  ∨ api_keys db' !! k = ApiKey.deactivate <$> api_keys db !! k.
Proof.
  induction 1 as [db|db db1 db' Hstep _ IH]; [by left|].
  assert (api_keys db1 !! k = api_keys db !! k
          ∨ api_keys db1 !! k = ApiKey.deactivate <$> api_keys db !! k)
    as Hfirst.
  { destruct (step_cases _ _ Hstep)
      as [->|[(new & _ & ->)|(k' & api_key & Hkey & ->)]]; simpl;
      [by left..|].
    destruct (decide (k' = k)) as [->|Hne].
    - right. by rewrite lookup_insert_eq, Hkey.
    - left. by rewrite lookup_insert_ne. }
  destruct IH as [->| ->], Hfirst as [->| ->]; [by left|by right..|].
  right. by destruct (api_keys db !! k).
Qed.

(** X21: the writes of this module keep every row under its own primary
    key. *)
Theorem db_keyed_preserved db db' :
  db_keyed db → rtc (step GOOGLE_OAUTH2) db db' → db_keyed db'.
Proof.
  intros Hkeyed Hsteps. induction Hsteps as [db|db db1 db' Hstep _ IH];
    [done|].
  apply IH. destruct Hkeyed as (Hu & Hb & Hk).
  destruct (step_cases _ _ Hstep)
    as [->|[(new & _ & ->)|(k & api_key & Hkey & ->)]];
    [done|..]; (split; [|split]); simpl; try done.
  - by apply map_Forall_insert_2.
  - apply map_Forall_insert_2; [|done]. simpl. by apply (Hk k api_key).
Qed.

Lemma login_auth_id result_dict ctx db :
  db_keyed db →
  User.id (logged_in (login_auth GOOGLE_OAUTH2 result_dict ctx db))
  = GOOGLE_OAUTH2 +:+ ":" +:+ info_id result_dict.
Proof.
  intros (Hu & _). unfold login_auth.
  destruct (users db !! _) as [user|] eqn:Huser; simpl; [|done].
  by apply (Hu _ user).
Qed.

Lemma login_auth_keyed result_dict ctx db :
  db_keyed db →
  db_keyed (login_db (login_auth GOOGLE_OAUTH2 result_dict ctx db)).
Proof.
  intros (Hu & Hb & Hk). unfold login_auth.
  destruct (users db !! _) as [user|] eqn:Huser; simpl; [done|].
  split; [|done]. simpl. by apply map_Forall_insert_2.
Qed.

(** X22: in a database whose rows sit under their own keys, the user a
    login hands to the session carries the provider-qualified id, and
    [load_user] on that id gives the same user back from the database the
    login left. *)
Theorem login_then_load_user result_dict ctx db :
  db_keyed db →
  let r := login_auth GOOGLE_OAUTH2 result_dict ctx db in
  User.id (logged_in r) = GOOGLE_OAUTH2 +:+ ":" +:+ info_id result_dict
  ∧ load_user (User.id (logged_in r)) (login_db r) = Some (logged_in r).
Proof.
  intros Hkeyed r. split; [by apply login_auth_id|].
  unfold r, load_user. rewrite login_auth_id; [|done].
  apply login_auth_registered.
Qed.

(** X23: two logins with different provider subject ids never end up as the
    same local user. *)
Theorem distinct_identities_distinct_users
    result_dict1 result_dict2 ctx1 ctx2 db :
  db_keyed db →
  info_id result_dict1 ≠ info_id result_dict2 →
  let first := login_auth GOOGLE_OAUTH2 result_dict1 ctx1 db in
  let second :=
    login_auth GOOGLE_OAUTH2 result_dict2 ctx2 (login_db first) in
  User.id (logged_in first) ≠ User.id (logged_in second).
Proof.
  intros Hkeyed Hne first second. unfold second, first.
  rewrite (login_auth_id _ _ _ Hkeyed).
  rewrite (login_auth_id _ _ _ (login_auth_keyed _ ctx1 _ Hkeyed)).
  intros Heq. apply Hne.
  apply (inj (String.append GOOGLE_OAUTH2)) in Heq.
  by apply (inj (String.append ":")) in Heq.
Qed.

(** X24: once an identity that owns a build has logged in, the request that
    resolved to that build is granted it, private or not and whatever the
    method. *)
Theorem owner_login_then_access param_name ctx db build result_dict ctx' :
  db_keyed db →
  names_build int param_name ctx db build →
  GOOGLE_OAUTH2 +:+ ":" +:+ info_id result_dict ∈ Build.owners build →
  let r := login_auth GOOGLE_OAUTH2 result_dict ctx' db in
  can_user_access_build int param_name
    (mkContext (request ctx) (LoggedIn (logged_in r))) (login_db r)
  = Return (Granted build).
Proof.
  intros Hkeyed (b & Hid & Hnz & Hb) Hown r.
  assert (builds (login_db r) = builds db) as Hbuilds.
  { unfold r, login_auth. by destruct (users db !! _). }
  rewrite (can_user_access_build_resolved int _ _ _ build).
  - simpl.
    assert (user_is_owner (LoggedIn (logged_in r)) build = true) as ->;
      [|done].
    apply user_is_owner_spec. exists (logged_in r). split; [done|].
    unfold r. by rewrite login_auth_id.
  - exists b. simpl. by rewrite Hbuilds.
Qed.

End Writes.

(** * The further scenarios, evaluated *)

Lemma sample_db_keyed : db_keyed sample_db.
Proof.
  unfold db_keyed, sample_db. simpl. repeat split;
    repeat (apply map_Forall_insert_2; [reflexivity|]);
    apply map_Forall_empty.
Qed.

Lemma sample_steps :
  rtc (step "google_oauth2") sample_db sample_db_later.
Proof.
  eapply rtc_l; [apply (step_login_auth _ sample_login callback)|].
  apply rtc_once. apply (step_revoke_api_key _ revoke_k1 build5 revoke_post).
Qed.

Lemma query_string_wins_witness :
  can_user_access_build int_ascii "id"
    (mkContext (mkRequest "POST" "/build?id=5" {[ "id" := "5" ]} ∅ None)
       (LoggedIn U1)) sample_db
  = can_user_access_build int_ascii "id"
      (mkContext (mkRequest "POST" "/build?id=5" {[ "id" := "5" ]}
                    {[ "id" := "6" ]} None)
         (LoggedIn U1)) sample_db.
Proof.
  apply (query_string_wins int_ascii "id" _ _ _ _ _ _ _ _ 5);
    [reflexivity | done].
Defined.

Lemma form_is_the_fallback_witness :
  can_user_access_build int_ascii "id"
    (mkContext (mkRequest "POST" "/build?id=0" {[ "id" := "0" ]}
                  {[ "id" := "5" ]} None)
       (LoggedIn U1)) sample_db
  = can_user_access_build int_ascii "id"
      (mkContext (mkRequest "POST" "/build?id=0" ∅ {[ "id" := "5" ]} None)
         (LoggedIn U1)) sample_db.
Proof.
  apply (form_is_the_fallback int_ascii "id"). reflexivity.
Defined.

Lemma build_access_required_guards_witness :
  build_access_required int_ascii "id" (λ _, handler)
    (mkContext (post_build "6") AnonymousUser) sample_db
  = build_access_required int_ascii "id" (λ _, other_handler)
      (mkContext (post_build "6") AnonymousUser) sample_db
  ∧ (build_access_required int_ascii "id" (λ _, handler)
       (mkContext (post_build "6") AnonymousUser) sample_db).2 = sample_db.
Proof.
  apply (build_access_required_guards int_ascii "id").
  intros build _ [(u & Hu & _)|[Hm _]]; discriminate.
Defined.

Lemma build_access_required_calls_witness :
  build_access_required int_ascii "id" (λ _, handler)
    (mkContext (post_build "5") (LoggedIn U1)) sample_db
  = handler (mkContext (post_build "5") (LoggedIn U1)) sample_db.
Proof.
  apply (build_access_required_calls int_ascii "id" (λ _, handler) _
           sample_db build5).
  - apply names_build5. right. by split.
  - left. exists U1. split; [done|]. unfold build5. simpl.
    by apply elem_of_singleton_2.
Defined.

Lemma api_key_checks_admits_witness :
  api_key_checks int_ascii (Some (mkAuthorization "k1" (Some "s1"))) handler
    (mkContext (api_post "k1" "s1" (Some "5")) AnonymousUser) sample_db
  = handler (mkContext (api_post "k1" "s1" (Some "5")) AnonymousUser)
      sample_db.
Proof.
  apply (api_key_checks_admits int_ascii).
  exists (mkAuthorization "k1" (Some "s1")), k1.
  repeat split; try reflexivity.
  right. exists 5, build5. by repeat split.
Defined.

Lemma api_key_checks_refuses_witness :
  ∃ e, e ∈ [HTTPException 403; HTTPException 404; AttributeError "username"]
       ∧ ∀ f, api_key_checks int_ascii
                (Some (mkAuthorization "k1" (Some "s1"))) f
                (mkContext (api_post "k1" "s1" (Some "6")) AnonymousUser)
                sample_db
              = (Raise e, sample_db).
Proof.
  apply (api_key_checks_refuses int_ascii).
  intros (hdr & api_key & [= <-] & Hkey & _ & _ & Hscope).
  vm_compute in Hkey. injection Hkey as <-.
  destruct Hscope as [Hsuper|(b & build & Hid & _ & Hkb & _)];
    [discriminate|].
  vm_compute in Hid. injection Hid as <-. discriminate.
Defined.

Lemma bad_credentials_forbidden_witness :
  api_key_checks int_ascii (Some (mkAuthorization "k1" (Some "guess")))
    handler (mkContext (api_post "k1" "guess" (Some "5")) AnonymousUser)
    sample_db
  = (abort 403, sample_db).
Proof.
  apply (bad_credentials_forbidden int_ascii).
  intros api_key Hkey. vm_compute in Hkey. injection Hkey as <-.
  right. discriminate.
Defined.

Lemma manage_api_keys_creates_nothing_witness :
  manage_api_keys (CreateApiKeyForm.mk true) build5
    (mkContext (post_build "5") (LoggedIn U1)) sample_db
  = (Raise (NameError "utils"), sample_db).
Proof. by apply manage_api_keys_creates_nothing. Defined.

Lemma revoke_api_key_spares_other_builds_witness :
  api_keys (revoke_api_key (RevokeApiKeyForm.mk true "k2") build5
              revoke_post sample_db).2 !! "k2"
  = Some k2.
Proof.
  apply revoke_api_key_spares_other_builds; [reflexivity | discriminate].
Defined.

Lemma only_an_owner_revokes_witness :
  ∃ build, names_build int_ascii "build_id" revoke_post sample_db build
           ∧ Owner (current_user revoke_post) build
           ∧ ApiKey.build_id k1 = Some (Build.id build)
           ∧ RevokeApiKeyForm.id_data revoke_k1 = "k1".
Proof.
  apply (only_an_owner_revokes int_ascii revoke_k1 revoke_post sample_db).
  - discriminate.
  - reflexivity.
  - reflexivity.
  - by vm_compute.
Defined.

Lemma builds_never_written_witness :
  builds sample_db_later = builds sample_db.
Proof. apply (builds_never_written "google_oauth2"), sample_steps. Defined.

Lemma users_never_change_witness :
  users sample_db_later !! User.id U1 = Some U1.
Proof.
  apply (users_never_change "google_oauth2" sample_db);
    [apply sample_steps | reflexivity].
Defined.

Lemma api_keys_only_deactivate_witness :
  api_keys sample_db_later !! "k1" = api_keys sample_db !! "k1"
  ∨ api_keys sample_db_later !! "k1"
    = ApiKey.deactivate <$> api_keys sample_db !! "k1".
Proof.
  apply (api_keys_only_deactivate "google_oauth2"), sample_steps.
Defined.

Lemma db_keyed_preserved_witness : db_keyed sample_db_later.
Proof.
  apply (db_keyed_preserved "google_oauth2" sample_db);
    [apply sample_db_keyed | apply sample_steps].
Defined.

Lemma login_then_load_user_witness :
  let r := login_auth "google_oauth2" sample_login callback sample_db in
  User.id (logged_in r) = "google_oauth2:3"
  ∧ load_user (User.id (logged_in r)) (login_db r) = Some (logged_in r).
Proof.
  apply (login_then_load_user "google_oauth2" sample_login callback
           sample_db).
  apply sample_db_keyed.
Defined.

Lemma distinct_identities_distinct_users_witness :
  User.id (logged_in (login_auth "google_oauth2"
                        (mkUserInfo "1" "u1@example.com") callback
                        sample_db))
  ≠ User.id (logged_in
               (login_auth "google_oauth2" sample_login callback
                  (login_db (login_auth "google_oauth2"
                               (mkUserInfo "1" "u1@example.com") callback
                               sample_db)))).
Proof.
  apply (distinct_identities_distinct_users "google_oauth2"
           (mkUserInfo "1" "u1@example.com") sample_login callback callback
           sample_db);
    [apply sample_db_keyed | discriminate].
Defined.

Lemma owner_login_then_access_witness :
  can_user_access_build int_ascii "id"
    (mkContext (get_build "5")
       (LoggedIn (logged_in
                    (login_auth "google_oauth2"
                       (mkUserInfo "1" "other@example.com") callback
                       sample_db))))
    (login_db (login_auth "google_oauth2"
                 (mkUserInfo "1" "other@example.com") callback sample_db))
  = Return (Granted build5).
Proof.
  apply (owner_login_then_access int_ascii "google_oauth2" "id"
           (mkContext (get_build "5") AnonymousUser) sample_db build5
           (mkUserInfo "1" "other@example.com") callback).
  - apply sample_db_keyed.
  - apply names_build5. by left.
  - unfold build5. simpl. by apply elem_of_singleton_2.
Defined.
